(** * Course catalog application (app.py): storage and request handlers

    A shallow embedding of the Flask application's record store
    ([load_courses], [save_courses]) and of its request handlers
    ([index], [course_catalog], [add_course], [course_details]),
    followed by the properties of the catalog that hold (or fail) on it. *)

From Stdlib Require Import String Ascii List ZArith Bool Arith Lia.
From Stdlib Require Import DecimalString DecimalZ.
Import ListNotations.
Set Warnings "-register-all".
Open Scope string_scope.
Open Scope list_scope.

(** ** Python values

    The values that [json.load] can hand to the program and that the
    handlers build themselves: [None], booleans, integers, strings, lists
    and string-keyed dictionaries.  A dictionary is kept as an association
    list in insertion order, the order in which [json.dump] prints it.
    JSON numbers are kept as integers; the program never computes with
    them. *)

Inductive pyval : Type :=
| PNone
| PBool (b : bool)
| PInt (z : Z)
| PStr (s : string)
| PList (items : list pyval)
| PDict (entries : list (string * pyval)).

Inductive exn : Type :=
| JSONDecodeError
| FileNotFoundError
| TypeError
| KeyError
| AttributeError.

Inductive result (A : Type) : Type :=
| Ok (a : A)
| Raise (e : exn).
Arguments Ok {A} a.
Arguments Raise {A} e.

(** First binding of a key, as [dict.__getitem__] and [MultiDict.get]
    find it. *)
Fixpoint assoc {V : Type} (k : string) (l : list (string * V)) : option V :=
  match l with
  | [] => None
  | (k', v) :: rest => if String.eqb k k' then Some v else assoc k rest
  end.

(** [bool(v)]. *)
Definition py_truthy (v : pyval) : bool :=
  match v with
  | PNone => false
  | PBool b => b
  | PInt z => negb (Z.eqb z 0)
  | PStr s => negb (String.eqb s EmptyString)
  | PList l => negb (Nat.eqb (List.length l) 0)
  | PDict d => negb (Nat.eqb (List.length d) 0)
  end.

(** [a == b]: structural on containers, order-insensitive on dictionaries,
    and [True == 1]. *)
Fixpoint py_eqb (a b : pyval) {struct a} : bool :=
  match a, b with
  | PNone, PNone => true
  | PBool x, PBool y => Bool.eqb x y
  | PBool x, PInt z => Z.eqb (if x then 1 else 0) z
  | PInt z, PBool x => Z.eqb z (if x then 1 else 0)
  | PInt x, PInt y => Z.eqb x y
  | PStr x, PStr y => String.eqb x y
  | PList xs, PList ys =>
      (fix go (xs ys : list pyval) {struct xs} : bool :=
         match xs, ys with
         | [], [] => true
         | x :: xs', y :: ys' => py_eqb x y && go xs' ys'
         | _, _ => false
         end) xs ys
  | PDict d, PDict e =>
      Nat.eqb (List.length d) (List.length e) &&
      (fix go (d : list (string * pyval)) : bool :=
         match d with
         | [] => true
         | (k, v) :: d' =>
             match assoc k e with
             | Some v' => py_eqb v v'
             | None => false
             end && go d'
         end) d
  | _, _ => false
  end.

(** [v[k]] for a string key [k]. *)
Definition py_getitem (v : pyval) (k : string) : result pyval :=
  match v with
  | PDict d =>
      match assoc k d with
      | Some x => Ok x
      | None => Raise KeyError
      end
  | _ => Raise TypeError
  end.

(** The one-character strings a [str] yields when iterated. *)
Fixpoint str_chars (s : string) : list pyval :=
  match s with
  | EmptyString => []
  | String c rest => PStr (String c EmptyString) :: str_chars rest
  end.

(** [iter(v)], run to the end: the elements of a list, the keys of a
    dictionary, the characters of a string. *)
Definition py_iter (v : pyval) : result (list pyval) :=
  match v with
  | PList l => Ok l
  | PDict d => Ok (map (fun kv => PStr (fst kv)) d)
  | PStr s => Ok (str_chars s)
  | _ => Raise TypeError
  end.

(** [len(v)]. *)
Definition py_len (v : pyval) : result nat :=
  match v with
  | PList l => Ok (List.length l)
  | PDict d => Ok (List.length d)
  | PStr s => Ok (String.length s)
  | _ => Raise TypeError
  end.

(** [v.append(x)]: only lists have the method. *)
Definition py_append (v x : pyval) : result pyval :=
  match v with
  | PList l => Ok (PList (l ++ [x]))
  | _ => Raise AttributeError
  end.

(** [all(d.values())]. *)
Definition py_all_values (d : list (string * pyval)) : bool :=
  forallb py_truthy (map snd d).

(** [any(existing_course["code"] == course["code"] for existing_course in items)]:
    lazy, so it stops at the first hit and raises at the first element that
    cannot be subscripted. *)
Fixpoint any_code_eq (items : list pyval) (course : pyval) : result bool :=
  match items with
  | [] => Ok false
  | existing_course :: rest =>
      match py_getitem existing_course "code" with
      | Raise e => Raise e
      | Ok c =>
          match py_getitem course "code" with
          | Raise e => Raise e
          | Ok c' => if py_eqb c c' then Ok true else any_code_eq rest course
          end
      end
  end.

(** [next((course for course in items if course['code'] == code), None)]. *)
Fixpoint next_code_eq (items : list pyval) (code : string) : result pyval :=
  match items with
  | [] => Ok PNone
  | course :: rest =>
      match py_getitem course "code" with
      | Raise e => Raise e
      | Ok c => if py_eqb c (PStr code) then Ok course else next_code_eq rest code
      end
  end.

(** ** The world a request runs in

    [disk] is the text of [COURSE_FILE] ([None] while the file does not
    exist), [written] the texts written to it so far, one entry per
    [open(COURSE_FILE, 'w')] block, and [flashed] the messages queued by
    [flash], with their categories. *)

Record world : Type := mkWorld {
  disk : option string;
  written : list string;
  flashed : list (string * string)
}.

Definition M (A : Type) : Type := world -> result A * world.

Definition ret {A : Type} (a : A) : M A := fun w => (Ok a, w).

Definition bind {A B : Type} (m : M A) (k : A -> M B) : M B :=
  fun w =>
    match m w with
    | (Ok a, w') => k a w'
    | (Raise e, w') => (Raise e, w')
    end.

Definition lift {A : Type} (r : result A) : M A := fun w => (r, w).

Notation "x <- m ;; k" := (bind m (fun x => k))
  (at level 61, m at next level, right associativity).
Notation "m ;;; k" := (bind m (fun _ => k))
  (at level 61, right associativity).

(** [os.path.exists(COURSE_FILE)]. *)
Definition path_exists : M bool :=
  fun w => (Ok (match disk w with Some _ => true | None => false end), w).

(** [flash(message, category)]. *)
Definition flash (message category : string) : M unit :=
  fun w => (Ok tt, mkWorld (disk w) (written w) (flashed w ++ [(message, category)])).

Inductive method : Type := GET | POST.

Record request : Type := mkRequest {
  req_method : method;
  form : list (string * string)
}.

(** [request.form.get(k)]. *)
Definition form_get (f : list (string * string)) (k : string) : pyval :=
  match assoc k f with
  | Some s => PStr s
  | None => PNone
  end.

Inductive response : Type :=
| Render (template : string) (context : list (string * pyval))
| Redirect (endpoint : string).

(** The dictionary [add_course] builds from the submitted form. *)
Definition course_of_form (f : list (string * string)) : list (string * pyval) :=
  [ ("code", form_get f "code");
    ("name", form_get f "name");
    ("instructor", form_get f "instructor");
    ("semester", form_get f "semester");
    ("schedule", form_get f "schedule");
    ("classroom", form_get f "classroom");
    ("prerequisites", form_get f "prerequisites");
    ("grading", form_get f "grading");
    ("description", form_get f "description") ].

(** The nine keys of that dictionary. *)
Definition required_fields : list string :=
  [ "code"; "name"; "instructor"; "semester"; "schedule"; "classroom";
    "prerequisites"; "grading"; "description" ].

(** The form carries no value, or the empty string, for field [k]. *)
Definition field_missing (f : list (string * string)) (k : string) : Prop :=
  assoc k f = None \/ assoc k f = Some EmptyString.

(** ** Course records, as the specification describes them *)

Record Course : Type := mkCourse {
  code : string;
  name : string;
  instructor : string;
  semester : string;
  schedule : string;
  classroom : string;
  prerequisites : string;
  grading : string;
  description : string
}.

(** The JSON object of a course record. *)
Definition course_dict (c : Course) : pyval :=
  PDict [ ("code", PStr (code c));
          ("name", PStr (name c));
          ("instructor", PStr (instructor c));
          ("semester", PStr (semester c));
          ("schedule", PStr (schedule c));
          ("classroom", PStr (classroom c));
          ("prerequisites", PStr (prerequisites c));
          ("grading", PStr (grading c));
          ("description", PStr (description c)) ].

(** The form a browser submits for a course record. *)
Definition course_form (c : Course) : list (string * string) :=
  [ ("code", code c);
    ("name", name c);
    ("instructor", instructor c);
    ("semester", semester c);
    ("schedule", schedule c);
    ("classroom", classroom c);
    ("prerequisites", prerequisites c);
    ("grading", grading c);
    ("description", description c) ].

(** All nine fields are filled in. *)
Definition filled (c : Course) : bool :=
  forallb (fun kv => negb (String.eqb (snd kv) EmptyString)) (course_form c).

Definition catalog_value (L : list Course) : pyval :=
  PList (map course_dict L).

(** ** A concrete JSON codec

    [json.dump] and [json.load] belong to Python's library, not to the
    application; the development below is parametric in them.  This module
    gives one concrete printer and parser for the value fragment above
    (compact separators, backslash escapes for the quote and the
    backslash), used to instantiate the parametric results. *)

Module MiniJson.

Definition dquote : ascii := "034"%char.
Definition backslash : ascii := "092"%char.

Definition needs_escape (c : ascii) : bool :=
  Ascii.eqb c dquote || Ascii.eqb c backslash.

Fixpoint escape (s : string) : string :=
  match s with
  | EmptyString => EmptyString
  | String c rest =>
      if needs_escape c
      then String backslash (String c (escape rest))
      else String c (escape rest)
  end.

Definition dump_str (s : string) : string :=
  String dquote (escape s ++ String dquote EmptyString).

Definition dump_int (z : Z) : string :=
  NilZero.string_of_int (Z.to_int z).

Fixpoint dump (v : pyval) : string :=
  match v with
  | PNone => "null"
  | PBool true => "true"
  | PBool false => "false"
  | PInt z => dump_int z
  | PStr s => dump_str s
  | PList l =>
      String "[" 
        match l with
        | [] => "]"
        | x :: r =>
            dump x ++
            (fix items (r : list pyval) : string :=
               match r with
               | [] => "]"
               | y :: r' => String "," (dump y ++ items r')
               end) r
        end
  | PDict d =>
      String "{"
        match d with
        | [] => "}"
        | (k, x) :: r =>
            dump_str k ++ String ":" (dump x ++
            (fix members (r : list (string * pyval)) : string :=
               match r with
               | [] => "}"
               | (k', y) :: r' =>
                   String "," (dump_str k' ++ String ":" (dump y ++ members r'))
               end) r)
        end
  end.

(** The body of a string literal, after its opening quote. *)
Fixpoint parse_str (s : string) : option (string * string) :=
  match s with
  | EmptyString => None
  | String c rest =>
      if Ascii.eqb c dquote then Some (EmptyString, rest)
      else if Ascii.eqb c backslash then
        match rest with
        | EmptyString => None
        | String c' rest' =>
            if needs_escape c' then
              match parse_str rest' with
              | Some (t, r) => Some (String c' t, r)
              | None => None
              end
            else None
        end
      else
        match parse_str rest with
        | Some (t, r) => Some (String c t, r)
        | None => None
        end
  end.

Definition is_num_char (c : ascii) : bool :=
  Ascii.eqb c "-" ||
  (Nat.leb 48 (nat_of_ascii c) && Nat.leb (nat_of_ascii c) 57).

Fixpoint span_num (s : string) : string * string :=
  match s with
  | EmptyString => (EmptyString, EmptyString)
  | String c rest =>
      if is_num_char c
      then let (a, b) := span_num rest in (String c a, b)
      else (EmptyString, s)
  end.

Definition parse_int (s : string) : option (Z * string) :=
  let (a, b) := span_num s in
  match NilZero.int_of_string a with
  | Some d => Some (Z.of_int d, b)
  | None => None
  end.

(** [expect lit s]: [s] without its prefix [lit]. *)
Fixpoint expect (lit s : string) : option string :=
  match lit with
  | EmptyString => Some s
  | String c lit' =>
      match s with
      | EmptyString => None
      | String c' s' => if Ascii.eqb c c' then expect lit' s' else None
      end
  end.

(** A [key:] prefix of an object member. *)
Definition parse_key (s : string) : option (string * string) :=
  match s with
  | EmptyString => None
  | String c rest =>
      if Ascii.eqb c dquote then
        match parse_str rest with
        | Some (k, String c' r) => if Ascii.eqb c' ":" then Some (k, r) else None
        | _ => None
        end
      else None
  end.

Fixpoint parse (fuel : nat) (s : string) {struct fuel} : option (pyval * string) :=
  match fuel with
  | O => None
  | S fuel' =>
      match s with
      | EmptyString => None
      | String c rest =>
          if Ascii.eqb c "n" then option_map (pair PNone) (expect "ull" rest)
          else if Ascii.eqb c "t" then option_map (pair (PBool true)) (expect "rue" rest)
          else if Ascii.eqb c "f" then option_map (pair (PBool false)) (expect "alse" rest)
          else if Ascii.eqb c dquote then
            match parse_str rest with
            | Some (t, r) => Some (PStr t, r)
            | None => None
            end
          else if Ascii.eqb c "[" then
            match rest with
            | EmptyString => None
            | String c' r =>
                if Ascii.eqb c' "]" then Some (PList [], r)
                else
                  match parse fuel' rest with
                  | Some (x, r1) =>
                      match parse_items fuel' r1 with
                      | Some (xs, r2) => Some (PList (x :: xs), r2)
                      | None => None
                      end
                  | None => None
                  end
            end
          else if Ascii.eqb c "{" then
            match rest with
            | EmptyString => None
            | String c' r =>
                if Ascii.eqb c' "}" then Some (PDict [], r)
                else
                  match parse_key rest with
                  | Some (k, r0) =>
                      match parse fuel' r0 with
                      | Some (x, r1) =>
                          match parse_members fuel' r1 with
                          | Some (xs, r2) => Some (PDict ((k, x) :: xs), r2)
                          | None => None
                          end
                      | None => None
                      end
                  | None => None
                  end
            end
          else if is_num_char c then
            match parse_int s with
            | Some (z, r) => Some (PInt z, r)
            | None => None
            end
          else None
      end
  end

with parse_items (fuel : nat) (s : string) {struct fuel} : option (list pyval * string) :=
  match fuel with
  | O => None
  | S fuel' =>
      match s with
      | EmptyString => None
      | String c rest =>
          if Ascii.eqb c "]" then Some ([], rest)
          else if Ascii.eqb c "," then
            match parse fuel' rest with
            | Some (x, r1) =>
                match parse_items fuel' r1 with
                | Some (xs, r2) => Some (x :: xs, r2)
                | None => None
                end
            | None => None
            end
          else None
      end
  end

with parse_members (fuel : nat) (s : string) {struct fuel}
  : option (list (string * pyval) * string) :=
  match fuel with
  | O => None
  | S fuel' =>
      match s with
      | EmptyString => None
      | String c rest =>
          if Ascii.eqb c "}" then Some ([], rest)
          else if Ascii.eqb c "," then
            match parse_key rest with
            | Some (k, r0) =>
                match parse fuel' r0 with
                | Some (x, r1) =>
                    match parse_members fuel' r1 with
                    | Some (xs, r2) => Some ((k, x) :: xs, r2)
                    | None => None
                    end
                | None => None
                end
            | None => None
            end
          else None
      end
  end.

(** The whole text must be one value. *)
Definition load (s : string) : option pyval :=
  match parse (String.length s) s with
  | Some (v, EmptyString) => Some v
  | _ => None
  end.

(** The printer's inner loops, named, and the vocabulary of the
    read-back proof. *)

Definition dump_items : list pyval -> string :=
  fix items (r : list pyval) : string :=
    match r with
    | [] => "]"
    | y :: r' => String "," (dump y ++ items r')
    end.

Definition dump_members : list (string * pyval) -> string :=
  fix members (r : list (string * pyval)) : string :=
    match r with
    | [] => "}"
    | (k', y) :: r' =>
        String "," (dump_str k' ++ String ":" (dump y ++ members r'))
    end.

Fixpoint all_num (s : string) : bool :=
  match s with
  | EmptyString => true
  | String c rest => is_num_char c && all_num rest
  end.

(** The text after a value never begins like a number. *)
Definition sep_start (r : string) : Prop :=
  match r with
  | EmptyString => True
  | String c _ => is_num_char c = false
  end.

(** The characters a printed value can begin with. *)
Definition starts_value (c : ascii) : bool :=
  Ascii.eqb c "n" || Ascii.eqb c "t" || Ascii.eqb c "f" || Ascii.eqb c dquote
  || Ascii.eqb c "[" || Ascii.eqb c "{" || is_num_char c.

(** What the induction carries for one value. *)
Definition reads_back (v : pyval) : Prop :=
  forall fuel r,
    String.length (dump v) <= fuel -> sep_start r ->
    parse fuel (dump v ++ r)%string = Some (v, r).

End MiniJson.

(** ** The application, parametric in the JSON codec *)

Section App.

(** [json.dump(v, file, indent=4)] as the text it writes, and [json.load]
    as the value it returns, [None] standing for a [JSONDecodeError]. *)
Variable json_dump : pyval -> string.
Variable json_load : string -> option pyval.

(** [with open(COURSE_FILE, 'r') as file: return json.load(file)]. *)
Definition read_json : M pyval :=
  fun w =>
    match disk w with
    | None => (Raise FileNotFoundError, w)
    | Some txt =>
        match json_load txt with
        | Some v => (Ok v, w)
        | None => (Raise JSONDecodeError, w)
        end
    end.

(** [with open(COURSE_FILE, 'w') as file: json.dump(v, file, indent=4)]. *)
Definition write_json (v : pyval) : M unit :=
  fun w =>
    (Ok tt, mkWorld (Some (json_dump v)) (written w ++ [json_dump v]) (flashed w)).

(** [load_courses()]: the empty list while the file does not exist,
    otherwise whatever [json.load] makes of its text; a decoding error is
    not caught. *)
Definition load_courses : M pyval :=
  present <- path_exists ;;
  if negb present then ret (PList []) else read_json.

(** [save_courses(data)]: loads the file again, appends [data] to that
    list as one element and rewrites the file.  When the loaded value is
    not a list, [append] raises before the file is opened for writing. *)
Definition save_courses (data : pyval) : M unit :=
  courses <- load_courses ;;
  courses' <- lift (py_append courses data) ;;
  write_json courses'.

(** [GET /]. *)
Definition index (req : request) : M response :=
  ret (Render "index.html" []).

(** [GET /catalog]; [len(courses)] is evaluated for the span attribute. *)
Definition course_catalog (req : request) : M response :=
  courses <- load_courses ;;
  _ <- lift (py_len courses) ;;
  ret (Render "course_catalog.html" [("courses", courses)]).

(** [GET, POST /add_course].  On the success path the handler appends the
    new course to the list it loaded and passes that whole list to
    [save_courses]. *)
Definition add_course (req : request) : M response :=
  match req_method req with
  | POST =>
      let course := PDict (course_of_form (form req)) in
      if py_all_values (course_of_form (form req)) then
        courses <- load_courses ;;
        items <- lift (py_iter courses) ;;
        exists_ <- lift (any_code_eq items course) ;;
        if (exists_ : bool) then
          flash "A course with this code already exists!" "danger" ;;;
          ret (Render "add_course.html" [])
        else
          courses' <- lift (py_append courses course) ;;
          save_courses courses' ;;;
          flash "Course added successfully!" "success" ;;;
          ret (Redirect "course_catalog")
      else
        flash "All fields are required!" "danger" ;;;
        ret (Render "add_course.html" [])
  | GET => ret (Render "add_course.html" [])
  end.

(** [GET /course/<code>]. *)
Definition course_details (code : string) : M response :=
  courses <- load_courses ;;
  items <- lift (py_iter courses) ;;
  course <- lift (next_code_eq items code) ;;
  if negb (py_truthy course) then
    flash ("No course found with code '" ++ code ++ "'.") "error" ;;;
    ret (Redirect "course_catalog")
  else
    ret (Render "course_details.html" [("course", course)]).

(** What [load_courses] returns in a world: the persisted collection. *)
Definition persisted (w : world) : result pyval := fst (load_courses w).

(** [save_courses] called on each value in turn. *)
Fixpoint save_each (cs : list pyval) : M unit :=
  match cs with
  | [] => ret tt
  | c :: rest => save_courses c ;;; save_each rest
  end.

End App.

(** The scenario of the specification: one course, submitted to a server
    that has no catalog file yet. *)
Definition cs101 : Course :=
  mkCourse "CS101" "Intro" "A" "F24" "MWF" "101" "None" "Letter" "Intro course".

Definition fresh_world : world := mkWorld None [] [].

Definition post (c : Course) : request := mkRequest POST (course_form c).

(** A second record that reuses the code of [cs101]. *)
Definition cs101_again : Course :=
  mkCourse "CS101" "Intro II" "B" "S25" "TTh" "202" "CS101" "Pass/Fail" "Second offering".

Definition cs102 : Course :=
  mkCourse "CS102" "Data Structures" "B" "S25" "TTh" "202" "CS101" "Letter" "Lists and trees".

(** A server whose catalog file holds the records [L], printed by the
    concrete codec. *)
Definition world_with (L : list Course) : world :=
  mkWorld (Some (MiniJson.dump (catalog_value L))) [] [].

(** A server whose catalog file is not JSON. *)
Definition broken_world : world := mkWorld (Some "{") [] [].

(** The world left by submitting [cs101] to a fresh server. *)
Definition after_cs101 : world :=
  snd (add_course MiniJson.dump MiniJson.load (post cs101) fresh_world).

(** A server whose catalog file holds the empty JSON object. *)
Definition empty_object_world : world := mkWorld (Some "{}") [] [].

(** A server whose catalog file holds [cs101], then an object without a
    [code] key, then [cs102]. *)
Definition damaged_world : world :=
  mkWorld
    (Some (MiniJson.dump
             (PList [course_dict cs101; PDict [("name", PStr "Orphan")];
                     course_dict cs102])))
    [] [].

(** ** A server answering one submission after the other *)

Section Serving.

Variable json_dump : pyval -> string.
Variable json_load : string -> option pyval.

(** The requests reach [add_course] in order; a request that raises is
    answered with a server error and the next one runs in the world it
    left. *)
Fixpoint serve_add_course (reqs : list request) (w : world) : world :=
  match reqs with
  | [] => w
  | req :: rest =>
      serve_add_course rest (snd (add_course json_dump json_load req w))
  end.

End Serving.

(** ** The concrete codec reads back what it prints *)

Lemma append_assoc_s (a b c : string) : ((a ++ b) ++ c = a ++ (b ++ c))%string.
Proof.
  induction a as [|x a IH]; simpl; [reflexivity | now rewrite IH].
Qed.

Lemma append_empty_r (a : string) : (a ++ EmptyString)%string = a.
Proof.
  induction a as [|x a IH]; simpl; [reflexivity | now rewrite IH].
Qed.

Lemma length_append_s (a b : string) :
  String.length (a ++ b)%string = String.length a + String.length b.
Proof.
  induction a as [|x a IH]; simpl; [reflexivity | now rewrite IH].
Qed.

(** Nested induction on values: the property holds for a container once it
    holds for everything stored in it. *)
Section PyvalInduction.

Variable P : pyval -> Prop.
Hypothesis HNone : P PNone.
Hypothesis HBool : forall b, P (PBool b).
Hypothesis HInt : forall z, P (PInt z).
Hypothesis HStr : forall s, P (PStr s).
Hypothesis HList : forall l, Forall P l -> P (PList l).
Hypothesis HDict : forall d, Forall (fun kv => P (snd kv)) d -> P (PDict d).

Fixpoint pyval_nested_ind (v : pyval) : P v :=
  match v with
  | PNone => HNone
  | PBool b => HBool b
  | PInt z => HInt z
  | PStr s => HStr s
  | PList l =>
      HList l
        ((fix all (l : list pyval) : Forall P l :=
            match l with
            | [] => Forall_nil P
            | x :: r => Forall_cons x (pyval_nested_ind x) (all r)
            end) l)
  | PDict d =>
      HDict d
        ((fix all (d : list (string * pyval)) : Forall (fun kv => P (snd kv)) d :=
            match d with
            | [] => Forall_nil _
            | kv :: r => Forall_cons kv (pyval_nested_ind (snd kv)) (all r)
            end) d)
  end.

End PyvalInduction.

Module MiniJsonFacts.
Import MiniJson.

Lemma dump_list_cons x r :
  dump (PList (x :: r)) = String "[" (dump x ++ dump_items r)%string.
Proof. reflexivity. Qed.

Lemma dump_dict_cons k x r :
  dump (PDict ((k, x) :: r)) =
  String "{" (dump_str k ++ String ":" (dump x ++ dump_members r)).
Proof. reflexivity. Qed.

Lemma parse_str_escape (s r : string) :
  parse_str (escape s ++ String dquote r)%string = Some (s, r).
Proof.
  induction s as [|c s IH]; [reflexivity|].
  cbn [escape]. destruct (needs_escape c) eqn:E.
  - cbn [append parse_str]. change (Ascii.eqb backslash dquote) with false.
    change (Ascii.eqb backslash backslash) with true. cbn iota.
    rewrite E, IH. reflexivity.
  - cbn [append parse_str]. unfold needs_escape in E.
    apply orb_false_iff in E as [E1 E2]. rewrite E1, E2, IH. reflexivity.
Qed.

Lemma parse_key_dump (k r : string) :
  parse_key (dump_str k ++ String ":" r)%string = Some (k, r).
Proof.
  unfold dump_str. cbn [append parse_key].
  rewrite Ascii.eqb_refl, append_assoc_s. cbn [append].
  rewrite parse_str_escape. reflexivity.
Qed.

Lemma uint_all_num (d : Decimal.uint) : all_num (NilEmpty.string_of_uint d) = true.
Proof. induction d; simpl; auto. Qed.

Lemma dump_int_all_num (z : Z) : all_num (dump_int z) = true.
Proof.
  unfold dump_int, NilZero.string_of_int, NilZero.string_of_uint.
  destruct (Z.to_int z) as [d|d]; destruct d; simpl; auto using uint_all_num.
Qed.

Lemma dump_int_head (z : Z) :
  exists c s, dump_int z = String c s /\ is_num_char c = true.
Proof.
  unfold dump_int, NilZero.string_of_int, NilZero.string_of_uint.
  destruct (Z.to_int z) as [d|d]; destruct d; simpl; eauto.
Qed.

Lemma span_num_append (a r : string) :
  all_num a = true -> sep_start r -> span_num (a ++ r)%string = (a, r).
Proof.
  induction a as [|c a IH]; simpl; intros Ha Hr.
  - destruct r as [|c r]; [reflexivity|]. simpl in *. now rewrite Hr.
  - apply andb_true_iff in Ha as [Hc Ha]. now rewrite Hc, IH.
Qed.

Lemma to_int_proper (z : Z) :
  Z.to_int z <> Decimal.Pos Decimal.Nil /\ Z.to_int z <> Decimal.Neg Decimal.Nil.
Proof.
  destruct z; simpl; split; try discriminate;
    intros [= H]; now apply DecimalPos.Unsigned.to_uint_nonnil in H.
Qed.

Lemma parse_int_dump (z : Z) (r : string) :
  sep_start r -> parse_int (dump_int z ++ r)%string = Some (z, r).
Proof.
  intros Hr. unfold parse_int.
  rewrite span_num_append by auto using dump_int_all_num.
  unfold dump_int. destruct (to_int_proper z) as [H1 H2].
  rewrite NilZero.isi by assumption. now rewrite DecimalZ.of_to.
Qed.

Lemma starts_value_not_sep (c : ascii) :
  starts_value c = true ->
  Ascii.eqb c "]" = false /\ Ascii.eqb c "}" = false.
Proof.
  destruct c as [[] [] [] [] [] [] [] []]; intros H;
    vm_compute in H; try discriminate H; split; reflexivity.
Qed.

Lemma num_char_dispatch (c : ascii) :
  is_num_char c = true ->
  Ascii.eqb c "n" = false /\ Ascii.eqb c "t" = false /\ Ascii.eqb c "f" = false /\
  Ascii.eqb c dquote = false /\ Ascii.eqb c "[" = false /\ Ascii.eqb c "{" = false.
Proof.
  destruct c as [[] [] [] [] [] [] [] []]; intros H;
    vm_compute in H; try discriminate H; repeat split; reflexivity.
Qed.

Lemma dump_head (v : pyval) :
  exists c s, dump v = String c s /\ starts_value c = true.
Proof.
  destruct v as [|[]|z|s|l|d]; try (do 2 eexists; split; reflexivity).
  destruct (dump_int_head z) as (c & s & E & Hc).
  exists c, s. split; [exact E|]. unfold starts_value. rewrite Hc.
  now rewrite !orb_true_r.
Qed.

Lemma dump_items_sep (xs : list pyval) (r : string) :
  sep_start (dump_items xs ++ r).
Proof. destruct xs; reflexivity. Qed.

Lemma dump_members_sep (xs : list (string * pyval)) (r : string) :
  sep_start (dump_members xs ++ r).
Proof. destruct xs as [|[k x] xs]; reflexivity. Qed.

Lemma parse_list_step (f : nat) (rest : string) (c : ascii) (r0 : string) :
  rest = String c r0 -> Ascii.eqb c "]" = false ->
  parse (S f) (String "[" rest) =
  match parse f rest with
  | Some (x, r1) =>
      match parse_items f r1 with
      | Some (xs, r2) => Some (PList (x :: xs), r2)
      | None => None
      end
  | None => None
  end.
Proof. intros -> H. simpl. rewrite H. reflexivity. Qed.

Lemma parse_dict_step (f : nat) (rest : string) (c : ascii) (r0 : string) :
  rest = String c r0 -> Ascii.eqb c "}" = false ->
  parse (S f) (String "{" rest) =
  match parse_key rest with
  | Some (k, r0) =>
      match parse f r0 with
      | Some (x, r1) =>
          match parse_members f r1 with
          | Some (xs, r2) => Some (PDict ((k, x) :: xs), r2)
          | None => None
          end
      | None => None
      end
  | None => None
  end.
Proof. intros -> H. simpl parse. rewrite H. reflexivity. Qed.

Lemma parse_items_dump (xs : list pyval) :
  Forall reads_back xs ->
  forall fuel r,
    String.length (dump_items xs) <= fuel -> sep_start r ->
    parse_items fuel (dump_items xs ++ r) = Some (xs, r).
Proof.
  induction 1 as [|x xs Hx _ IH]; intros fuel r Hlen Hr.
  - destruct fuel; [simpl in Hlen; lia | reflexivity].
  - destruct fuel as [|f]; [simpl in Hlen; lia|].
    cbn [dump_items] in *. cbn [String.length] in Hlen.
    rewrite length_append_s in Hlen.
    cbn [append]. rewrite append_assoc_s. cbn [parse_items].
    change (Ascii.eqb "," "]") with false. change (Ascii.eqb "," ",") with true.
    cbn iota.
    rewrite Hx by (auto using dump_items_sep; lia).
    rewrite IH by (auto; lia). reflexivity.
Qed.

Lemma parse_members_dump (xs : list (string * pyval)) :
  Forall (fun kv => reads_back (snd kv)) xs ->
  forall fuel r,
    String.length (dump_members xs) <= fuel -> sep_start r ->
    parse_members fuel (dump_members xs ++ r) = Some (xs, r).
Proof.
  induction 1 as [|[k x] xs Hx _ IH]; intros fuel r Hlen Hr.
  - destruct fuel; [simpl in Hlen; lia | reflexivity].
  - destruct fuel as [|f]; [simpl in Hlen; lia|].
    cbn [dump_members] in *. cbn [String.length] in Hlen.
    rewrite length_append_s in Hlen. cbn [String.length] in Hlen.
    rewrite length_append_s in Hlen.
    cbn [append]. rewrite append_assoc_s. cbn [append]. rewrite append_assoc_s.
    cbn [parse_members].
    change (Ascii.eqb "," "}") with false. change (Ascii.eqb "," ",") with true.
    cbn iota. rewrite parse_key_dump.
    simpl snd in Hx. rewrite Hx by (auto using dump_members_sep; lia).
    rewrite IH by (auto; lia). reflexivity.
Qed.

Lemma parse_dump (v : pyval) : reads_back v.
Proof.
  induction v as [|b|z|s|l IH|d IH] using pyval_nested_ind;
    intros fuel r Hlen Hr.
  - destruct fuel; [simpl in Hlen; lia | reflexivity].
  - destruct fuel; [destruct b; simpl in Hlen; lia | destruct b; reflexivity].
  - destruct (dump_int_head z) as (c & s & E & Hc).
    cbn [dump] in *. rewrite E in Hlen.
    destruct fuel as [|f]; [simpl in Hlen; lia|].
    pose proof (parse_int_dump z r Hr) as Hp. rewrite E in *.
    destruct (num_char_dispatch c Hc) as (H1 & H2 & H3 & H4 & H5 & H6).
    cbn [append parse] in *. rewrite H1, H2, H3, H4, H5, H6, Hc, Hp. reflexivity.
  - destruct fuel; [simpl in Hlen; lia|].
    cbn [dump]. unfold dump_str. cbn [append parse].
    change (Ascii.eqb dquote "n") with false. change (Ascii.eqb dquote "t") with false.
    change (Ascii.eqb dquote "f") with false. rewrite Ascii.eqb_refl. cbn iota.
    rewrite append_assoc_s. cbn [append]. rewrite parse_str_escape. reflexivity.
  - destruct l as [|x xs].
    + destruct fuel; [simpl in Hlen; lia | reflexivity].
    + rewrite dump_list_cons in *. cbn [String.length] in Hlen.
      rewrite length_append_s in Hlen.
      destruct fuel as [|f]; [lia|].
      cbn [append]. rewrite append_assoc_s.
      destruct (dump_head x) as (c & s & E & Hc).
      destruct (starts_value_not_sep c Hc) as [Hc1 _].
      rewrite (parse_list_step f _ c (s ++ (dump_items xs ++ r))%string)
        by (rewrite ?E; auto).
      inversion IH as [|? ? Hx Hxs]; subst.
      rewrite Hx by (auto using dump_items_sep; lia).
      rewrite parse_items_dump by (auto; lia). reflexivity.
  - destruct d as [|[k x] xs].
    + destruct fuel; [simpl in Hlen; lia | reflexivity].
    + rewrite dump_dict_cons in *. cbn [String.length] in Hlen.
      rewrite length_append_s in Hlen. cbn [String.length] in Hlen.
      rewrite length_append_s in Hlen.
      destruct fuel as [|f]; [lia|].
      cbn [append]. rewrite append_assoc_s. cbn [append]. rewrite append_assoc_s.
      rewrite (parse_dict_step f _ dquote
                 (escape k ++ String dquote EmptyString ++
                  String ":" (dump x ++ dump_members xs ++ r))%string).
      * rewrite parse_key_dump.
        inversion IH as [|? ? Hx Hxs]; subst. simpl snd in Hx.
        rewrite Hx by (auto using dump_members_sep; lia).
        rewrite parse_members_dump by (auto; lia). reflexivity.
      * unfold dump_str. cbn [append]. now rewrite append_assoc_s.
      * reflexivity.
Qed.

Lemma load_dump (v : pyval) : load (dump v) = Some v.
Proof.
  unfold load.
  pose proof (parse_dump v (String.length (dump v)) EmptyString (le_n _) I) as H.
  rewrite append_empty_r in H. now rewrite H.
Qed.

End MiniJsonFacts.

(** ** Properties of the record store and of the handlers *)

Section Properties.

Variable json_dump : pyval -> string.
Variable json_load : string -> option pyval.

(** The one fact about the JSON library the results rely on: loading the
    text [json.dump] wrote gives the value back. *)
Hypothesis json_roundtrip : forall v, json_load (json_dump v) = Some v.

Local Abbreviation loadAll := (load_courses json_load).
Local Abbreviation appendAndSave := (save_courses json_dump json_load).
Local Abbreviation listCourses := (course_catalog json_load).
Local Abbreviation addCourse := (add_course json_dump json_load).
Local Abbreviation findByCode := (course_details json_load).
Local Abbreviation stored := (persisted json_load).

Lemma bind_ok {A B : Type} (m : M A) (k : A -> M B) (w w' : world) (a : A) :
  m w = (Ok a, w') -> bind m k w = k a w'.
Proof. unfold bind. now intros ->. Qed.

Lemma bind_raise {A B : Type} (m : M A) (k : A -> M B) (w w' : world) (e : exn) :
  m w = (Raise e, w') -> bind m k w = (Raise e, w').
Proof. unfold bind. now intros ->. Qed.

Lemma load_courses_eq (w : world) : loadAll w = (stored w, w).
Proof.
  unfold persisted, load_courses, bind, path_exists, read_json, ret.
  destruct w as [[txt|] ws fs]; simpl; [|reflexivity].
  destruct (json_load txt); reflexivity.
Qed.

Lemma bind_load {A : Type} (k : pyval -> M A) (w : world) :
  (courses <- loadAll ;; k courses) w =
  match stored w with
  | Ok v => k v w
  | Raise e => (Raise e, w)
  end.
Proof.
  unfold bind at 1. rewrite load_courses_eq. reflexivity.
Qed.

Lemma stored_unfold (w : world) :
  stored w =
  match disk w with
  | None => Ok (PList [])
  | Some txt =>
      match json_load txt with
      | Some v => Ok v
      | None => Raise JSONDecodeError
      end
  end.
Proof.
  unfold persisted, load_courses, bind, path_exists, read_json, ret.
  destruct w as [[txt|] ws fs]; simpl; [|reflexivity].
  destruct (json_load txt); reflexivity.
Qed.

Lemma stored_absent (w : world) : disk w = None -> stored w = Ok (PList []).
Proof. intros Hd. now rewrite stored_unfold, Hd. Qed.

Lemma stored_malformed (w : world) (txt : string) :
  disk w = Some txt -> json_load txt = None -> stored w = Raise JSONDecodeError.
Proof. intros Hd H. now rewrite stored_unfold, Hd, H. Qed.

Lemma stored_only_disk (w w' : world) : disk w' = disk w -> stored w' = stored w.
Proof. intros Hd. now rewrite !stored_unfold, Hd. Qed.

Lemma stored_written (v : pyval) (ws : list string) (fs : list (string * string)) :
  stored (mkWorld (Some (json_dump v)) ws fs) = Ok v.
Proof. rewrite stored_unfold. simpl. now rewrite json_roundtrip. Qed.

Lemma save_courses_list (w : world) (L : list pyval) (c : pyval) :
  stored w = Ok (PList L) ->
  appendAndSave c w =
  (Ok tt, mkWorld (Some (json_dump (PList (L ++ [c]))))
                  (written w ++ [json_dump (PList (L ++ [c]))])
                  (flashed w)).
Proof.
  intros H. unfold save_courses. rewrite bind_load, H. reflexivity.
Qed.

Lemma save_each_list (cs : list pyval) :
  forall (w : world) (L : list pyval),
    stored w = Ok (PList L) ->
    fst (save_each json_dump json_load cs w) = Ok tt /\
    stored (snd (save_each json_dump json_load cs w)) = Ok (PList (L ++ cs)).
Proof.
  induction cs as [|c cs IH]; intros w L H.
  - simpl. now rewrite app_nil_r.
  - cbn [save_each]. rewrite (bind_ok _ _ _ _ _ (save_courses_list w L c H)).
    replace (L ++ c :: cs) with ((L ++ [c]) ++ cs) by now rewrite <- app_assoc.
    apply IH. apply stored_written.
Qed.

(** C3. When the persisted collection is the list [L], [save_courses c]
    succeeds with one whole-file write, after which [load_courses] returns
    [L] with [c] appended as its single new last element. *)
Theorem save_courses_appends (w : world) (L : list pyval) (c : pyval) :
  stored w = Ok (PList L) ->
  fst (appendAndSave c w) = Ok tt /\
  written (snd (appendAndSave c w)) = written w ++ [json_dump (PList (L ++ [c]))] /\
  stored (snd (appendAndSave c w)) = Ok (PList (L ++ [c])).
Proof.
  intros H. rewrite (save_courses_list w L c H). simpl.
  repeat split. apply stored_written.
Qed.

(** C7. While the catalog file does not exist, [load_courses] returns the
    empty list and raises nothing, the catalog page lists no course and a
    lookup by code reports that nothing was found. *)
Theorem load_courses_absent_file (w : world) (req : request) (k : string) :
  disk w = None ->
  loadAll w = (Ok (PList []), w) /\
  listCourses req w = (Ok (Render "course_catalog.html" [("courses", PList [])]), w) /\
  findByCode k w =
    (Ok (Redirect "course_catalog"),
     mkWorld (disk w) (written w)
       (flashed w ++ [(("No course found with code '" ++ k ++ "'.")%string, "error")])).
Proof.
  intros H. pose proof (stored_absent w H) as Hs. repeat split.
  - now rewrite load_courses_eq, Hs.
  - unfold course_catalog. now rewrite bind_load, Hs.
  - unfold course_details. now rewrite bind_load, Hs.
Qed.

(** C8. When the catalog file exists and [json.load] rejects its text,
    [load_courses] raises [JSONDecodeError], and so does every operation
    that reads the store: the catalog page, the detail page, [save_courses]
    and a complete [POST /add_course]; nothing is written or flashed. *)
Theorem malformed_file_propagates
  (w : world) (txt : string) (req : request) (k : string) (data : pyval) :
  disk w = Some txt -> json_load txt = None ->
  loadAll w = (Raise JSONDecodeError, w) /\
  listCourses req w = (Raise JSONDecodeError, w) /\
  findByCode k w = (Raise JSONDecodeError, w) /\
  appendAndSave data w = (Raise JSONDecodeError, w) /\
  (req_method req = POST ->
   py_all_values (course_of_form (form req)) = true ->
   addCourse req w = (Raise JSONDecodeError, w)).
Proof.
  intros H1 H2. pose proof (stored_malformed w txt H1 H2) as Hs. repeat split.
  - now rewrite load_courses_eq, Hs.
  - unfold course_catalog. now rewrite bind_load, Hs.
  - unfold course_details. now rewrite bind_load, Hs.
  - unfold save_courses. now rewrite bind_load, Hs.
  - intros Hm Hall. unfold add_course. rewrite Hm, Hall.
    now rewrite bind_load, Hs.
Qed.

(** C9. Starting without a catalog file, or with one that holds the empty
    list, saving N course records one after
    the other with [save_courses] succeeds, and [load_courses] then returns
    exactly those N records, field for field and in insertion order. *)
Theorem save_then_load_roundtrip (w : world) (cs : list Course) :
  disk w = None \/
  (exists txt, disk w = Some txt /\ json_load txt = Some (PList [])) ->
  fst (save_each json_dump json_load (map course_dict cs) w) = Ok tt /\
  exists items,
    stored (snd (save_each json_dump json_load (map course_dict cs) w)) = Ok (PList items) /\
    List.length items = List.length cs /\
    items = map course_dict cs.
Proof.
  intros H.
  assert (Hs : stored w = Ok (PList [])).
  { rewrite stored_unfold. destruct H as [->|(txt & -> & ->)]; reflexivity. }
  destruct (save_each_list (map course_dict cs) w [] Hs) as [H1 H2].
  split; [exact H1|]. exists (map course_dict cs).
  split; [exact H2|]. split; [apply length_map | reflexivity].
Qed.

(** *** Facts about the duplicate scan and the lookup scan *)

Lemma course_of_form_course (c : Course) :
  PDict (course_of_form (course_form c)) = course_dict c.
Proof. reflexivity. Qed.

Lemma all_values_fields (f : list (string * string)) :
  py_all_values (course_of_form f) =
  forallb (fun k => py_truthy (form_get f k)) required_fields.
Proof. reflexivity. Qed.

Lemma all_values_filled (c : Course) :
  py_all_values (course_of_form (course_form c)) = filled c.
Proof. reflexivity. Qed.

Lemma missing_not_all (f : list (string * string)) (k : string) :
  In k required_fields -> field_missing f k ->
  py_all_values (course_of_form f) = false.
Proof.
  intros Hin Hk. rewrite all_values_fields.
  destruct (forallb _ required_fields) eqn:E; [|reflexivity].
  rewrite forallb_forall in E. specialize (E k Hin).
  unfold form_get in E. destruct Hk as [Hk|Hk]; rewrite Hk in E; discriminate E.
Qed.

Lemma getitem_code_dict (c : Course) :
  py_getitem (course_dict c) "code" = Ok (PStr (code c)).
Proof. reflexivity. Qed.

Lemma getitem_code_form (f : list (string * string)) :
  py_getitem (PDict (course_of_form f)) "code" = Ok (form_get f "code").
Proof. reflexivity. Qed.

Lemma any_code_eq_same_code (items : list pyval) (c1 c2 : pyval) :
  py_getitem c1 "code" = py_getitem c2 "code" ->
  any_code_eq items c1 = any_code_eq items c2.
Proof.
  intros H. induction items as [|x items IH]; [reflexivity|].
  cbn [any_code_eq]. rewrite H, IH. reflexivity.
Qed.

Lemma any_code_eq_then_list (items l : list pyval) (c : pyval) :
  any_code_eq items c = Ok false ->
  any_code_eq (items ++ [PList l]) c = Raise TypeError.
Proof.
  induction items as [|x items IH]; [reflexivity|].
  cbn [any_code_eq app].
  destruct (py_getitem x "code"); [|discriminate].
  destruct (py_getitem c "code"); [|discriminate].
  destruct (py_eqb _ _); [discriminate | exact IH].
Qed.

Lemma any_code_eq_catalog (L : list Course) (course : pyval) (k : string) :
  py_getitem course "code" = Ok (PStr k) ->
  any_code_eq (map course_dict L) course =
  Ok (existsb (fun c => String.eqb (code c) k) L).
Proof.
  intros H. induction L as [|c L IH]; [reflexivity|].
  cbn [map any_code_eq existsb]. rewrite getitem_code_dict, H, IH.
  change (py_eqb (PStr (code c)) (PStr k)) with (String.eqb (code c) k).
  destruct (String.eqb (code c) k); reflexivity.
Qed.

Lemma next_code_eq_catalog (L : list Course) (k : string) :
  next_code_eq (map course_dict L) k =
  Ok match find (fun c => String.eqb (code c) k) L with
     | Some c => course_dict c
     | None => PNone
     end.
Proof.
  induction L as [|c L IH]; [reflexivity|].
  cbn [map next_code_eq find]. rewrite getitem_code_dict.
  change (py_eqb (PStr (code c)) (PStr k)) with (String.eqb (code c) k).
  destruct (String.eqb (code c) k); [reflexivity | exact IH].
Qed.

Lemma find_first_match (pre post : list Course) (c : Course) (k : string) :
  code c = k -> (forall x, In x pre -> code x <> k) ->
  find (fun c => String.eqb (code c) k) (pre ++ c :: post) = Some c.
Proof.
  intros Hc Hpre. induction pre as [|x pre IH]; cbn [app find].
  - rewrite Hc, String.eqb_refl. reflexivity.
  - destruct (String.eqb_spec (code x) k) as [E|_].
    + exfalso. apply (Hpre x); [now left | exact E].
    + apply IH. intros y Hy. apply Hpre. now right.
Qed.

Lemma no_code_existsb (L : list Course) (k : string) :
  (forall x, In x L -> code x <> k) ->
  existsb (fun c => String.eqb (code c) k) L = false.
Proof.
  intros H. induction L as [|x L IH]; [reflexivity|].
  cbn [existsb]. destruct (String.eqb_spec (code x) k) as [E|_].
  - exfalso. apply (H x); [now left | exact E].
  - apply IH. intros y Hy. apply H. now right.
Qed.

(** *** The handlers, case by case *)

Lemma course_catalog_eq (req : request) (w : world) :
  listCourses req w =
  (match stored w with
   | Ok v =>
       match py_len v with
       | Ok _ => Ok (Render "course_catalog.html" [("courses", v)])
       | Raise e => Raise e
       end
   | Raise e => Raise e
   end, w).
Proof.
  unfold course_catalog. rewrite bind_load.
  destruct (stored w) as [v|e]; [|reflexivity].
  unfold bind, lift. destruct (py_len v); reflexivity.
Qed.

Lemma course_details_catalog (w : world) (L : list Course) (k : string) :
  stored w = Ok (catalog_value L) ->
  findByCode k w =
  match find (fun c => String.eqb (code c) k) L with
  | Some c => (Ok (Render "course_details.html" [("course", course_dict c)]), w)
  | None =>
      (Ok (Redirect "course_catalog"),
       mkWorld (disk w) (written w)
         (flashed w ++ [(("No course found with code '" ++ k ++ "'.")%string, "error")]))
  end.
Proof.
  intros H. unfold course_details. rewrite bind_load, H.
  unfold catalog_value, bind, lift. cbn [py_iter].
  rewrite next_code_eq_catalog.
  destruct (find _ L); reflexivity.
Qed.

Lemma course_details_frame (k : string) (w : world) :
  disk (snd (findByCode k w)) = disk w /\
  written (snd (findByCode k w)) = written w.
Proof.
  unfold course_details. rewrite bind_load.
  destruct (stored w) as [v|e]; [|now split].
  unfold bind, lift. destruct (py_iter v) as [items|e]; [|now split].
  destruct (next_code_eq items k) as [c|e]; [|now split].
  destruct (negb (py_truthy c)); now split.
Qed.

Lemma add_course_post_success (req : request) (w : world) (items : list pyval) :
  req_method req = POST ->
  py_all_values (course_of_form (form req)) = true ->
  stored w = Ok (PList items) ->
  any_code_eq items (PDict (course_of_form (form req))) = Ok false ->
  addCourse req w =
  (Ok (Redirect "course_catalog"),
   mkWorld
     (Some (json_dump (PList (items ++ [PList (items ++ [PDict (course_of_form (form req))])]))))
     (written w ++
      [json_dump (PList (items ++ [PList (items ++ [PDict (course_of_form (form req))])]))])
     (flashed w ++ [("Course added successfully!", "success")])).
Proof.
  intros Hm Hall Hs Hany. unfold add_course. rewrite Hm, Hall, bind_load, Hs.
  unfold bind at 1. unfold lift at 1. cbn [py_iter].
  unfold bind at 1. unfold lift at 1. rewrite Hany.
  unfold bind at 1. unfold lift at 1. cbn [py_append].
  rewrite (bind_ok _ _ _ _ _ (save_courses_list w items _ Hs)).
  reflexivity.
Qed.

Lemma add_course_outcome (req : request) (w : world) :
  (exists items,
     req_method req = POST /\
     py_all_values (course_of_form (form req)) = true /\
     stored w = Ok (PList items) /\
     any_code_eq items (PDict (course_of_form (form req))) = Ok false /\
     addCourse req w =
     (Ok (Redirect "course_catalog"),
      mkWorld
        (Some (json_dump (PList (items ++ [PList (items ++ [PDict (course_of_form (form req))])]))))
        (written w ++
         [json_dump (PList (items ++ [PList (items ++ [PDict (course_of_form (form req))])]))])
        (flashed w ++ [("Course added successfully!", "success")])))
  \/
  (fst (addCourse req w) <> Ok (Redirect "course_catalog") /\
   disk (snd (addCourse req w)) = disk w /\
   written (snd (addCourse req w)) = written w).
Proof.
  destruct (req_method req) eqn:Hm.
  { right. unfold add_course. rewrite Hm. simpl. repeat split. discriminate. }
  destruct (py_all_values (course_of_form (form req))) eqn:Hall.
  2:{ right. unfold add_course. rewrite Hm, Hall. simpl. repeat split. discriminate. }
  destruct (stored w) as [courses|e] eqn:Hs.
  2:{ right. unfold add_course. rewrite Hm, Hall, bind_load, Hs. simpl.
      repeat split. discriminate. }
  destruct (py_iter courses) as [items|e] eqn:Hit.
  2:{ right. unfold add_course. rewrite Hm, Hall, bind_load, Hs.
      unfold bind, lift. rewrite Hit. simpl. repeat split. discriminate. }
  destruct (any_code_eq items (PDict (course_of_form (form req)))) as [[|]|e] eqn:Hany.
  - right. unfold add_course. rewrite Hm, Hall, bind_load, Hs.
    unfold bind, lift. rewrite Hit, Hany. simpl. repeat split. discriminate.
  - destruct courses as [| | | |l|d];
      try (right; unfold add_course; rewrite Hm, Hall, bind_load, Hs;
           unfold bind, lift; rewrite Hit, Hany; simpl; repeat split; discriminate).
    injection Hit as <-. left. exists l.
    repeat split; auto using add_course_post_success.
  - right. unfold add_course. rewrite Hm, Hall, bind_load, Hs.
    unfold bind, lift. rewrite Hit, Hany. simpl. repeat split. discriminate.
Qed.

(** *** The claims about the handlers *)

(** C1. With a catalog [L] of course records on disk and a submission of
    nine non-empty fields whose code is new, [POST /add_course] succeeds, but
    the collection read back afterwards does not end in the submitted
    record: [add_course] appends the record to the loaded list and hands the
    whole list to [save_courses], which appends what it is given, so the new
    last element is the list [L ++ [c]] and the result differs from
    [L ++ [c]]. *)
Theorem add_course_appends_whole_list (w : world) (L : list Course) (c : Course) :
  stored w = Ok (catalog_value L) ->
  filled c = true ->
  (forall x, In x L -> code x <> code c) ->
  fst (addCourse (post c) w) = Ok (Redirect "course_catalog") /\
  stored (snd (addCourse (post c) w)) =
    Ok (PList (map course_dict L ++ [catalog_value (L ++ [c])])) /\
  stored (snd (addCourse (post c) w)) <> Ok (catalog_value (L ++ [c])).
Proof.
  intros Hs Hf Hnew.
  assert (Hany : any_code_eq (map course_dict L)
                   (PDict (course_of_form (form (post c)))) = Ok false).
  { rewrite (any_code_eq_catalog L _ (code c)) by reflexivity.
    now rewrite no_code_existsb. }
  rewrite (add_course_post_success (post c) w (map course_dict L)
             eq_refl Hf Hs Hany).
  cbn [fst snd]. rewrite stored_written.
  unfold catalog_value. rewrite map_app. cbn [map].
  repeat split.
  intros [= E]. apply app_inv_head in E. discriminate E.
Qed.

(** C2. Every call of [add_course] either succeeds with exactly one
    whole-file write, or leaves the file and the write log as they were.
    On success the collection read back is the old list with one element
    appended, and that element is the list [items ++ [course]], not the
    submitted course. *)
Theorem add_course_all_or_nothing (w : world) (req : request) :
  (exists items,
     stored w = Ok (PList items) /\
     fst (addCourse req w) = Ok (Redirect "course_catalog") /\
     written (snd (addCourse req w)) =
       written w ++
       [json_dump (PList (items ++ [PList (items ++ [PDict (course_of_form (form req))])]))] /\
     stored (snd (addCourse req w)) =
       Ok (PList (items ++ [PList (items ++ [PDict (course_of_form (form req))])])) /\
     stored (snd (addCourse req w)) <>
       Ok (PList (items ++ [PDict (course_of_form (form req))])))
  \/
  (fst (addCourse req w) <> Ok (Redirect "course_catalog") /\
   disk (snd (addCourse req w)) = disk w /\
   written (snd (addCourse req w)) = written w).
Proof.
  destruct (add_course_outcome req w) as [(items & _ & _ & Hs & _ & E)|H].
  - left. exists items. rewrite E. cbn [fst snd]. rewrite stored_written.
    repeat split; auto.
    intros [= E']. apply app_inv_head in E'. discriminate E'.
  - right. exact H.
Qed.

(** C4. When one of the nine required fields is absent from the form or
    empty, [POST /add_course] flashes "All fields are required!", shows the
    form again, writes nothing, and the catalog listed afterwards is the one
    listed before. *)
Theorem add_course_missing_field
  (w : world) (f : list (string * string)) (k : string) (req' : request) :
  In k required_fields -> field_missing f k ->
  addCourse (mkRequest POST f) w =
    (Ok (Render "add_course.html" []),
     mkWorld (disk w) (written w)
       (flashed w ++ [("All fields are required!", "danger")])) /\
  stored (snd (addCourse (mkRequest POST f) w)) = stored w /\
  fst (listCourses req' (snd (addCourse (mkRequest POST f) w))) =
  fst (listCourses req' w).
Proof.
  intros Hin Hk.
  assert (E : addCourse (mkRequest POST f) w =
              (Ok (Render "add_course.html" []),
               mkWorld (disk w) (written w)
                 (flashed w ++ [("All fields are required!", "danger")]))).
  { unfold add_course. cbn [req_method form].
    now rewrite (missing_not_all f k Hin Hk). }
  rewrite E. cbn [snd]. split; [reflexivity|].
  assert (Hs : stored (mkWorld (disk w) (written w)
                 (flashed w ++ [("All fields are required!", "danger")])) = stored w)
    by now apply stored_only_disk.
  split; [exact Hs|]. now rewrite !course_catalog_eq, Hs.
Qed.

(** C5. After a successful [POST /add_course], a second complete submission
    with the same code does not reach the duplicate branch: the scan meets
    the list the first call stored as last element, subscripts it with
    ["code"] and raises [TypeError]; nothing is written or flashed. *)
Theorem add_course_twice_raises (w w1 : world) (req1 req2 : request) :
  addCourse req1 w = (Ok (Redirect "course_catalog"), w1) ->
  req_method req2 = POST ->
  py_all_values (course_of_form (form req2)) = true ->
  form_get (form req2) "code" = form_get (form req1) "code" ->
  addCourse req2 w1 = (Raise TypeError, w1).
Proof.
  intros H1 Hm Hall Hcode.
  destruct (add_course_outcome req1 w) as [(items & _ & _ & _ & Hany & E)|(Hn & _)].
  2:{ rewrite H1 in Hn. now elim Hn. }
  rewrite E in H1. injection H1 as <-.
  unfold add_course. rewrite Hm, Hall, bind_load, stored_written.
  unfold bind, lift. cbn [py_iter].
  rewrite (any_code_eq_same_code _ _ (PDict (course_of_form (form req1))))
    by (now rewrite !getitem_code_form, Hcode).
  now rewrite (any_code_eq_then_list items _ _ Hany).
Qed.

(** C6. On a catalog [L] of course records, [GET /course/<code>] renders
    the first record of [L] whose code equals the argument, and it takes the
    not-found branch (flash and redirect to the catalog) exactly when no
    record of [L] has that code. *)
Theorem course_details_first_match (w : world) (L : list Course) (k : string) :
  stored w = Ok (catalog_value L) ->
  (forall pre c post,
     L = pre ++ c :: post -> code c = k ->
     (forall x, In x pre -> code x <> k) ->
     findByCode k w =
     (Ok (Render "course_details.html" [("course", course_dict c)]), w)) /\
  ((forall x, In x L -> code x <> k) <->
   findByCode k w =
   (Ok (Redirect "course_catalog"),
    mkWorld (disk w) (written w)
      (flashed w ++ [(("No course found with code '" ++ k ++ "'.")%string, "error")]))).
Proof.
  intros Hs. pose proof (course_details_catalog w L k Hs) as E. split.
  - intros pre c post -> Hc Hpre.
    now rewrite E, (find_first_match pre post c k Hc Hpre).
  - rewrite E. destruct (find _ L) as [c|] eqn:Hf; split.
    + intros Hno. apply find_some in Hf as [Hin Hc].
      apply String.eqb_eq in Hc. now elim (Hno c Hin).
    + discriminate.
    + reflexivity.
    + intros _ x Hin Hx.
      pose proof (find_none _ _ Hf x Hin) as Hn. cbv beta in Hn.
      rewrite Hx, String.eqb_refl in Hn. discriminate Hn.
Qed.

(** C10. [load_courses], the landing page, the catalog page and the form
    page ([GET /add_course]) return the world they were given; the detail
    page changes neither the file nor the write log; and [add_course]
    changes them only when it answers with the success redirect. *)
Theorem read_only_operations_keep_file
  (w : world) (req : request) (f : list (string * string)) (k : string) :
  snd (loadAll w) = w /\
  snd (index req w) = w /\
  snd (listCourses req w) = w /\
  (disk (snd (findByCode k w)) = disk w /\
   written (snd (findByCode k w)) = written w) /\
  snd (addCourse (mkRequest GET f) w) = w /\
  (fst (addCourse req w) = Ok (Redirect "course_catalog") \/
   disk (snd (addCourse req w)) = disk w /\
   written (snd (addCourse req w)) = written w).
Proof.
  split; [now rewrite load_courses_eq|].
  split; [reflexivity|].
  split; [now rewrite course_catalog_eq|].
  split; [apply course_details_frame|].
  split; [reflexivity|].
  destruct (add_course_outcome req w) as [(items & _ & _ & _ & _ & E)|(_ & H)].
  - left. now rewrite E.
  - right. exact H.
Qed.

(** *** Further properties of the handlers *)

Lemma any_code_eq_prefix_hit (pre : list Course) (rest : list pyval)
  (course : pyval) (k : string) :
  py_getitem course "code" = Ok (PStr k) ->
  existsb (fun c => String.eqb (code c) k) pre = true ->
  any_code_eq (map course_dict pre ++ rest) course = Ok true.
Proof.
  intros H. induction pre as [|c pre IH]; [discriminate|].
  cbn [map app any_code_eq existsb]. rewrite getitem_code_dict, H.
  change (py_eqb (PStr (code c)) (PStr k)) with (String.eqb (code c) k).
  destruct (String.eqb (code c) k); [reflexivity | exact IH].
Qed.

Lemma any_code_eq_list_element (items l : list pyval) (course : pyval) :
  In (PList l) items -> any_code_eq items course <> Ok false.
Proof.
  induction items as [|x items IH]; [intros []|].
  intros [->|Hin]; cbn [any_code_eq]; [discriminate|].
  destruct (py_getitem x "code"); [|discriminate].
  destruct (py_getitem course "code"); [|discriminate].
  destruct (py_eqb _ _); [discriminate | exact (IH Hin)].
Qed.

Lemma any_code_eq_false_all (items : list pyval) (course : pyval) (target : pyval) :
  py_getitem course "code" = Ok target ->
  any_code_eq items course = Ok false ->
  Forall (fun x => exists v, py_getitem x "code" = Ok v /\ py_eqb v target = false)
         items.
Proof.
  intros Ht. induction items as [|x items IH]; [constructor|].
  cbn [any_code_eq]. rewrite Ht.
  destruct (py_getitem x "code") as [v|e] eqn:Hx; [|discriminate].
  destruct (py_eqb v target) eqn:Hv; [discriminate|].
  intros H. constructor; [eauto | exact (IH H)].
Qed.

Lemma next_code_eq_prefix_hit (pre : list Course) (rest : list pyval)
  (k : string) (c : Course) :
  find (fun c => String.eqb (code c) k) pre = Some c ->
  next_code_eq (map course_dict pre ++ rest) k = Ok (course_dict c).
Proof.
  induction pre as [|x pre IH]; [discriminate|].
  cbn [map app next_code_eq find]. rewrite getitem_code_dict.
  change (py_eqb (PStr (code x)) (PStr k)) with (String.eqb (code x) k).
  destruct (String.eqb (code x) k); [now intros [= ->] | exact IH].
Qed.

Lemma next_code_eq_prefix_miss (pre : list Course) (rest : list pyval) (k : string) :
  find (fun c => String.eqb (code c) k) pre = None ->
  next_code_eq (map course_dict pre ++ rest) k = next_code_eq rest k.
Proof.
  induction pre as [|x pre IH]; [reflexivity|].
  cbn [map app next_code_eq find]. rewrite getitem_code_dict.
  change (py_eqb (PStr (code x)) (PStr k)) with (String.eqb (code x) k).
  destruct (String.eqb (code x) k); [discriminate | exact IH].
Qed.

Lemma no_code_find (L : list Course) (k : string) :
  (forall x, In x L -> code x <> k) ->
  find (fun c => String.eqb (code c) k) L = None.
Proof.
  intros H. induction L as [|x L IH]; [reflexivity|].
  cbn [find]. destruct (String.eqb_spec (code x) k) as [E|_].
  - exfalso. apply (H x); [now left | exact E].
  - apply IH. intros y Hy. apply H. now right.
Qed.

Lemma forallb_false_witness {A : Type} (p : A -> bool) (l : list A) :
  forallb p l = false -> exists x, In x l /\ p x = false.
Proof.
  induction l as [|x l IH]; [discriminate|].
  cbn [forallb]. destruct (p x) eqn:Hx.
  - intros H. destruct (IH H) as (y & Hy & Hp). exists y. split; [now right | exact Hp].
  - intros _. exists x. split; [now left | exact Hx].
Qed.

Lemma falsy_field_missing (f : list (string * string)) (k : string) :
  py_truthy (form_get f k) = false -> field_missing f k.
Proof.
  unfold form_get, field_missing. destruct (assoc k f) as [s|]; [|now left].
  cbn [py_truthy]. destruct (String.eqb_spec s EmptyString) as [->|]; [now right | discriminate].
Qed.

Lemma frozen_step (w : world) (items l : list pyval) (req : request) :
  stored w = Ok (PList items) -> In (PList l) items ->
  fst (addCourse req w) <> Ok (Redirect "course_catalog") /\
  disk (snd (addCourse req w)) = disk w /\
  written (snd (addCourse req w)) = written w.
Proof.
  intros Hs Hin.
  destruct (add_course_outcome req w) as [(items' & _ & _ & Hs' & Hany & _)|H];
    [|exact H].
  rewrite Hs in Hs'. injection Hs' as <-.
  elim (any_code_eq_list_element items l _ Hin Hany).
Qed.

(** X1. When a record with the submitted code stands in the stored list,
    after records only, a complete [POST /add_course] flashes "A course
    with this code already exists!", shows the form again and writes
    nothing, whatever the other fields are and whatever follows that record
    in the list. *)
Theorem add_course_duplicate_code
  (w : world) (pre : list Course) (rest : list pyval) (c : Course) (req : request) :
  stored w = Ok (PList (map course_dict pre ++ rest)) ->
  req_method req = POST ->
  py_all_values (course_of_form (form req)) = true ->
  In c pre ->
  form_get (form req) "code" = PStr (code c) ->
  addCourse req w =
  (Ok (Render "add_course.html" []),
   mkWorld (disk w) (written w)
     (flashed w ++ [("A course with this code already exists!", "danger")])).
Proof.
  intros Hs Hm Hall Hin Hcode.
  assert (Hex : existsb (fun x => String.eqb (code x) (code c)) pre = true).
  { apply existsb_exists. exists c. split; [exact Hin | apply String.eqb_refl]. }
  unfold add_course. rewrite Hm, Hall, bind_load, Hs.
  unfold bind, lift. cbn [py_iter].
  rewrite (any_code_eq_prefix_hit pre rest _ (code c)); [reflexivity | | exact Hex].
  now rewrite getitem_code_form, Hcode.
Qed.

(** X2. A [POST /add_course] ends in the "All fields are required!" outcome
    exactly when one of the nine fields is absent from the form or is the
    empty string; any non-empty string, such as "0" or a blank, passes the
    check. *)
Theorem all_fields_required_iff (w : world) (f : list (string * string)) :
  (exists k, In k required_fields /\ field_missing f k) <->
  addCourse (mkRequest POST f) w =
  (Ok (Render "add_course.html" []),
   mkWorld (disk w) (written w)
     (flashed w ++ [("All fields are required!", "danger")])).
Proof.
  split.
  - intros (k & Hin & Hk). unfold add_course. cbn [req_method form].
    now rewrite (missing_not_all f k Hin Hk).
  - destruct (py_all_values (course_of_form f)) eqn:Hall.
    + unfold add_course. cbn [req_method form]. rewrite Hall, bind_load.
      destruct (stored w) as [courses|e]; [|discriminate].
      unfold bind at 1. unfold lift at 1.
      destruct (py_iter courses) as [items|e]; [|discriminate].
      unfold bind at 1. unfold lift at 1.
      destruct (any_code_eq items _) as [[|]|e]; [| |discriminate].
      * unfold bind, flash, ret. cbn [disk written flashed].
        intros [= E]. apply app_inv_head in E. discriminate E.
      * unfold bind at 1. unfold lift at 1.
        destruct (py_append courses _) as [courses'|e]; [|discriminate].
        unfold bind at 1.
        destruct (appendAndSave courses' w) as [[[]|e] w']; discriminate.
    + intros _. rewrite all_values_fields in Hall.
      destruct (forallb_false_witness _ _ Hall) as (k & Hin & Hk).
      exists k. split; [exact Hin | now apply falsy_field_missing].
Qed.

(** X3. When the file holds JSON that is not a list, a complete
    [POST /add_course] raises and changes nothing: [AttributeError] from
    [courses.append] for the empty object and the empty string, whose scan
    finds nothing, and [TypeError] for every other value. *)
Theorem add_course_non_list_store (w : world) (v : pyval) (req : request) :
  stored w = Ok v ->
  (forall l, v <> PList l) ->
  req_method req = POST ->
  py_all_values (course_of_form (form req)) = true ->
  addCourse req w =
  (Raise match v with
         | PDict [] => AttributeError
         | PStr EmptyString => AttributeError
         | _ => TypeError
         end, w).
Proof.
  intros Hs Hv Hm Hall. unfold add_course. rewrite Hm, Hall, bind_load, Hs.
  destruct v as [|b|z|s|l|d]; try reflexivity.
  - destruct s; reflexivity.
  - now elim (Hv l).
  - destruct d as [|[k x] d]; reflexivity.
Qed.

(** X4. When the file holds JSON that is not a list, [save_courses] raises
    [AttributeError] at [courses.append] and the file is neither truncated
    nor rewritten. *)
Theorem save_courses_non_list_store (w : world) (v data : pyval) :
  stored w = Ok v ->
  (forall l, v <> PList l) ->
  appendAndSave data w = (Raise AttributeError, w).
Proof.
  intros Hs Hv. unfold save_courses. rewrite bind_load, Hs.
  destruct v; try reflexivity. now elim (Hv items).
Qed.

(** X5. [add_course] succeeds at most once: in every world that has the
    file left by a successful call no request is answered with the success
    redirect again, and however many submissions follow, the file and the
    write log stay as that call left them. *)
Theorem add_course_succeeds_at_most_once (w w1 : world) (req1 : request) :
  addCourse req1 w = (Ok (Redirect "course_catalog"), w1) ->
  (forall w' req2,
     disk w' = disk w1 ->
     fst (addCourse req2 w') <> Ok (Redirect "course_catalog")) /\
  (forall reqs,
     disk (serve_add_course json_dump json_load reqs w1) = disk w1 /\
     written (serve_add_course json_dump json_load reqs w1) = written w1).
Proof.
  intros H1.
  destruct (add_course_outcome req1 w) as [(items & _ & _ & _ & _ & E)|(Hn & _)].
  2:{ rewrite H1 in Hn. now elim Hn. }
  rewrite E in H1. injection H1 as <-.
  set (c := PDict (course_of_form (form req1))) in *.
  set (w1 := mkWorld _ _ _).
  assert (Hs1 : stored w1 = Ok (PList (items ++ [PList (items ++ [c])])))
    by apply stored_written.
  assert (Hin : In (PList (items ++ [c])) (items ++ [PList (items ++ [c])]))
    by (apply in_or_app; right; now left).
  assert (Hstep : forall w' req2,
             disk w' = disk w1 ->
             fst (addCourse req2 w') <> Ok (Redirect "course_catalog") /\
             disk (snd (addCourse req2 w')) = disk w' /\
             written (snd (addCourse req2 w')) = written w').
  { intros w' req2 Hd.
    apply (frozen_step w' (items ++ [PList (items ++ [c])]) (items ++ [c]));
      [|exact Hin].
    now rewrite (stored_only_disk w1 w' Hd). }
  split; [intros w' req2 Hd; apply (Hstep w' req2 Hd)|].
  intros reqs.
  enough (G : forall w', disk w' = disk w1 ->
              disk (serve_add_course json_dump json_load reqs w') = disk w1 /\
              written (serve_add_course json_dump json_load reqs w') = written w')
    by (apply G; reflexivity).
  induction reqs as [|r reqs IH]; intros w' Hd; [now split|].
  cbn [serve_add_course].
  destruct (Hstep w' r Hd) as (_ & Hd' & Hw').
  destruct (IH (snd (addCourse r w'))) as [G1 G2]; [congruence|].
  split; congruence.
Qed.

(** X6. After a course with a new code was added to a catalog of records,
    [GET /course/<code>] for that code raises [TypeError], because the scan
    subscripts the list that was stored in place of the record; the records
    that were there before are still found. *)
Theorem added_course_lookup_raises (w : world) (L : list Course) (c : Course) :
  stored w = Ok (catalog_value L) ->
  filled c = true ->
  (forall x, In x L -> code x <> code c) ->
  findByCode (code c) (snd (addCourse (post c) w)) =
    (Raise TypeError, snd (addCourse (post c) w)) /\
  (forall k x,
     find (fun y => String.eqb (code y) k) L = Some x ->
     findByCode k (snd (addCourse (post c) w)) =
     (Ok (Render "course_details.html" [("course", course_dict x)]),
      snd (addCourse (post c) w))).
Proof.
  intros Hs Hf Hnew.
  assert (Hany : any_code_eq (map course_dict L)
                   (PDict (course_of_form (form (post c)))) = Ok false).
  { rewrite (any_code_eq_catalog L _ (code c)) by reflexivity.
    now rewrite no_code_existsb. }
  rewrite (add_course_post_success (post c) w (map course_dict L)
             eq_refl Hf Hs Hany).
  cbn [snd]. set (w1 := mkWorld _ _ _).
  assert (Hs1 : stored w1 =
                Ok (PList (map course_dict L ++
                           [PList (map course_dict L ++
                                   [PDict (course_of_form (form (post c)))])])))
    by apply stored_written.
  split.
  - unfold course_details. rewrite bind_load, Hs1.
    unfold bind, lift. cbn [py_iter].
    rewrite next_code_eq_prefix_miss by now apply no_code_find.
    reflexivity.
  - intros k x Hx. unfold course_details. rewrite bind_load, Hs1.
    unfold bind, lift. cbn [py_iter].
    rewrite (next_code_eq_prefix_hit L _ k x Hx). reflexivity.
Qed.

(** X7. The scan of [GET /course/<code>] is lazy: a record that matches
    before any damaged entry is rendered whatever follows it, and when no
    record before the first entry that cannot be subscripted with ["code"]
    matches, the exception of that entry ([KeyError] for an object without
    the key, [TypeError] for anything that is not an object) is raised and
    nothing is flashed. *)
Theorem course_details_scan_is_lazy
  (w : world) (pre : list Course) (rest : list pyval) (k : string) :
  stored w = Ok (PList (map course_dict pre ++ rest)) ->
  (forall c,
     find (fun y => String.eqb (code y) k) pre = Some c ->
     findByCode k w =
     (Ok (Render "course_details.html" [("course", course_dict c)]), w)) /\
  (forall bad rest' e,
     find (fun y => String.eqb (code y) k) pre = None ->
     rest = bad :: rest' ->
     py_getitem bad "code" = Raise e ->
     findByCode k w = (Raise e, w)).
Proof.
  intros Hs. split.
  - intros c Hc. unfold course_details. rewrite bind_load, Hs.
    unfold bind, lift. cbn [py_iter].
    rewrite (next_code_eq_prefix_hit pre rest k c Hc). reflexivity.
  - intros bad rest' e Hnone -> Hbad. unfold course_details.
    rewrite bind_load, Hs. unfold bind, lift. cbn [py_iter].
    rewrite (next_code_eq_prefix_miss pre _ k Hnone).
    cbn [next_code_eq]. rewrite Hbad. reflexivity.
Qed.

Lemma add_course_post_unfold (req : request) (w : world) :
  req_method req = POST ->
  py_all_values (course_of_form (form req)) = true ->
  addCourse req w =
  match stored w with
  | Raise e => (Raise e, w)
  | Ok courses =>
      match py_iter courses with
      | Raise e => (Raise e, w)
      | Ok items =>
          match any_code_eq items (PDict (course_of_form (form req))) with
          | Raise e => (Raise e, w)
          | Ok true =>
              (Ok (Render "add_course.html" []),
               mkWorld (disk w) (written w)
                 (flashed w ++ [("A course with this code already exists!", "danger")]))
          | Ok false =>
              match py_append courses (PDict (course_of_form (form req))) with
              | Raise e => (Raise e, w)
              | Ok courses' =>
                  match appendAndSave courses' w with
                  | (Raise e, w') => (Raise e, w')
                  | (Ok _, w') =>
                      (Ok (Redirect "course_catalog"),
                       mkWorld (disk w') (written w')
                         (flashed w' ++ [("Course added successfully!", "success")]))
                  end
              end
          end
      end
  end.
Proof.
  intros Hm Hall. unfold add_course. rewrite Hm, Hall, bind_load.
  destruct (stored w) as [courses|e]; [|reflexivity].
  unfold bind at 1. unfold lift at 1.
  destruct (py_iter courses) as [items|e]; [|reflexivity].
  unfold bind at 1. unfold lift at 1.
  destruct (any_code_eq items _) as [[|]|e]; [reflexivity| |reflexivity].
  unfold bind at 1. unfold lift at 1.
  destruct (py_append courses _) as [courses'|e]; [|reflexivity].
  unfold bind at 1.
  destruct (appendAndSave courses' w) as [[[]|e] w']; reflexivity.
Qed.

(** X8. [add_course] queues exactly one flash message on every [POST] it
    answers, and none on a [GET] or when it raises; messages queued earlier
    are kept in place. *)
Theorem add_course_flashes_once (w : world) (req : request) :
  match fst (addCourse req w), req_method req with
  | Ok _, POST =>
      exists msg, flashed (snd (addCourse req w)) = flashed w ++ [msg]
  | _, _ => flashed (snd (addCourse req w)) = flashed w
  end.
Proof.
  destruct (req_method req) eqn:Hm.
  { unfold add_course. rewrite Hm. reflexivity. }
  destruct (py_all_values (course_of_form (form req))) eqn:Hall.
  2:{ unfold add_course. rewrite Hm, Hall. cbn. eauto. }
  rewrite (add_course_post_unfold req w Hm Hall).
  destruct (stored w) as [courses|e] eqn:Hs; [|reflexivity].
  destruct (py_iter courses) as [items|e]; [|reflexivity].
  destruct (any_code_eq items _) as [[|]|e]; [cbn; eauto | | reflexivity].
  destruct courses as [| | | |l|d]; try reflexivity.
  cbn [py_append]. rewrite (save_courses_list w l _ Hs). cbn. eauto.
Qed.

(** X9. [add_course] answers with the success redirect only for a complete
    [POST] on a stored list all of whose elements are objects with a [code]
    different from the submitted one: it never stores a course whose code
    is already listed. *)
Theorem add_course_success_only_if_new (w w1 : world) (req : request) :
  addCourse req w = (Ok (Redirect "course_catalog"), w1) ->
  req_method req = POST /\
  py_all_values (course_of_form (form req)) = true /\
  exists items,
    stored w = Ok (PList items) /\
    Forall (fun x => exists v, py_getitem x "code" = Ok v /\
                               py_eqb v (form_get (form req) "code") = false)
           items.
Proof.
  intros H1.
  destruct (add_course_outcome req w) as [(items & Hm & Hall & Hs & Hany & _)|(Hn & _)].
  2:{ rewrite H1 in Hn. now elim Hn. }
  split; [exact Hm|]. split; [exact Hall|]. exists items.
  split; [exact Hs|].
  apply (any_code_eq_false_all items (PDict (course_of_form (form req)))).
  - apply getitem_code_form.
  - exact Hany.
Qed.

End Properties.

(** ** The results at the concrete codec

    Each parametric result is instantiated with [MiniJson] on the scenario
    of the specification. *)

Lemma save_courses_appends_witness :
  persisted MiniJson.load (world_with [cs101]) = Ok (PList [course_dict cs101]) /\
  persisted MiniJson.load
    (snd (save_courses MiniJson.dump MiniJson.load (course_dict cs102)
            (world_with [cs101]))) =
  Ok (PList [course_dict cs101; course_dict cs102]).
Proof.
  split; [vm_compute; reflexivity|].
  apply (save_courses_appends MiniJson.dump MiniJson.load MiniJsonFacts.load_dump
           (world_with [cs101]) [course_dict cs101] (course_dict cs102)).
  vm_compute; reflexivity.
Defined.

Lemma load_courses_absent_file_witness :
  disk fresh_world = None /\
  load_courses MiniJson.load fresh_world = (Ok (PList []), fresh_world).
Proof.
  split; [reflexivity|].
  apply (load_courses_absent_file MiniJson.load fresh_world
           (mkRequest GET []) "CS101" eq_refl).
Defined.

Lemma malformed_file_propagates_witness :
  disk broken_world = Some "{" /\
  MiniJson.load "{" = None /\
  load_courses MiniJson.load broken_world = (Raise JSONDecodeError, broken_world) /\
  add_course MiniJson.dump MiniJson.load (post cs101) broken_world =
  (Raise JSONDecodeError, broken_world).
Proof.
  split; [reflexivity|]. split; [reflexivity|].
  destruct (malformed_file_propagates MiniJson.dump MiniJson.load broken_world "{"
              (post cs101) "CS101" (course_dict cs101) eq_refl eq_refl)
    as (H1 & _ & _ & _ & H5).
  split; [exact H1 | exact (H5 eq_refl eq_refl)].
Defined.

Lemma save_then_load_roundtrip_witness :
  disk fresh_world = None /\
  persisted MiniJson.load
    (snd (save_each MiniJson.dump MiniJson.load
            (map course_dict [cs101; cs102; cs101_again]) fresh_world)) =
  Ok (catalog_value [cs101; cs102; cs101_again]).
Proof.
  split; [reflexivity|].
  destruct (save_then_load_roundtrip MiniJson.dump MiniJson.load MiniJsonFacts.load_dump
              fresh_world [cs101; cs102; cs101_again] (or_introl eq_refl))
    as (_ & items & H & _ & ->).
  exact H.
Defined.

Lemma add_course_appends_whole_list_witness :
  persisted MiniJson.load fresh_world = Ok (catalog_value []) /\
  filled cs101 = true /\
  fst (add_course MiniJson.dump MiniJson.load (post cs101) fresh_world) =
    Ok (Redirect "course_catalog") /\
  persisted MiniJson.load after_cs101 = Ok (PList [PList [course_dict cs101]]) /\
  persisted MiniJson.load after_cs101 <> Ok (PList [course_dict cs101]).
Proof.
  split; [reflexivity|]. split; [reflexivity|].
  apply (add_course_appends_whole_list MiniJson.dump MiniJson.load
           MiniJsonFacts.load_dump fresh_world [] cs101);
    [reflexivity | reflexivity | intros x []].
Defined.

Lemma add_course_all_or_nothing_witness :
  (exists items,
     persisted MiniJson.load (world_with [cs101]) = Ok (PList items) /\
     fst (add_course MiniJson.dump MiniJson.load (post cs102) (world_with [cs101])) =
       Ok (Redirect "course_catalog") /\
     written (snd (add_course MiniJson.dump MiniJson.load (post cs102) (world_with [cs101]))) =
       written (world_with [cs101]) ++
       [MiniJson.dump
          (PList (items ++ [PList (items ++ [PDict (course_of_form (form (post cs102)))])]))] /\
     persisted MiniJson.load
       (snd (add_course MiniJson.dump MiniJson.load (post cs102) (world_with [cs101]))) =
       Ok (PList (items ++ [PList (items ++ [PDict (course_of_form (form (post cs102)))])])) /\
     persisted MiniJson.load
       (snd (add_course MiniJson.dump MiniJson.load (post cs102) (world_with [cs101]))) <>
       Ok (PList (items ++ [PDict (course_of_form (form (post cs102)))])))
  \/
  (fst (add_course MiniJson.dump MiniJson.load (post cs102) (world_with [cs101])) <>
     Ok (Redirect "course_catalog") /\
   disk (snd (add_course MiniJson.dump MiniJson.load (post cs102) (world_with [cs101]))) =
     disk (world_with [cs101]) /\
   written (snd (add_course MiniJson.dump MiniJson.load (post cs102) (world_with [cs101]))) =
     written (world_with [cs101])).
Proof.
  exact (add_course_all_or_nothing MiniJson.dump MiniJson.load MiniJsonFacts.load_dump
           (world_with [cs101]) (post cs102)).
Defined.

Lemma add_course_missing_field_witness :
  In "grading" required_fields /\
  field_missing [("code", "CS101"); ("name", "Intro")] "grading" /\
  add_course MiniJson.dump MiniJson.load
    (mkRequest POST [("code", "CS101"); ("name", "Intro")]) (world_with [cs102]) =
  (Ok (Render "add_course.html" []),
   mkWorld (disk (world_with [cs102])) []
     [("All fields are required!", "danger")]).
Proof.
  assert (Hin : In "grading" required_fields) by (simpl; tauto).
  assert (Hk : field_missing [("code", "CS101"); ("name", "Intro")] "grading")
    by (left; reflexivity).
  split; [exact Hin|]. split; [exact Hk|].
  exact (proj1 (add_course_missing_field MiniJson.dump MiniJson.load
                  (world_with [cs102]) [("code", "CS101"); ("name", "Intro")]
                  "grading" (mkRequest GET []) Hin Hk)).
Defined.

Lemma add_course_twice_raises_witness :
  add_course MiniJson.dump MiniJson.load (post cs101) fresh_world =
    (Ok (Redirect "course_catalog"), after_cs101) /\
  add_course MiniJson.dump MiniJson.load (post cs101_again) after_cs101 =
    (Raise TypeError, after_cs101).
Proof.
  split; [vm_compute; reflexivity|].
  apply (add_course_twice_raises MiniJson.dump MiniJson.load MiniJsonFacts.load_dump
           fresh_world after_cs101 (post cs101) (post cs101_again));
    vm_compute; reflexivity.
Defined.

Lemma course_details_first_match_witness :
  persisted MiniJson.load (world_with [cs102; cs101; cs101_again]) =
    Ok (catalog_value [cs102; cs101; cs101_again]) /\
  course_details MiniJson.load "CS101" (world_with [cs102; cs101; cs101_again]) =
    (Ok (Render "course_details.html" [("course", course_dict cs101)]),
     world_with [cs102; cs101; cs101_again]).
Proof.
  assert (Hs : persisted MiniJson.load (world_with [cs102; cs101; cs101_again]) =
               Ok (catalog_value [cs102; cs101; cs101_again]))
    by (vm_compute; reflexivity).
  split; [exact Hs|].
  apply (proj1 (course_details_first_match MiniJson.load
                  (world_with [cs102; cs101; cs101_again])
                  [cs102; cs101; cs101_again] "CS101" Hs)
           [cs102] cs101 [cs101_again] eq_refl eq_refl).
  intros x [<-|[]]. discriminate.
Defined.

Lemma add_course_duplicate_code_witness :
  persisted MiniJson.load (world_with [cs101; cs102]) =
    Ok (PList (map course_dict [cs101; cs102] ++ [])) /\
  add_course MiniJson.dump MiniJson.load (post cs101_again) (world_with [cs101; cs102]) =
  (Ok (Render "add_course.html" []),
   mkWorld (disk (world_with [cs101; cs102])) []
     [("A course with this code already exists!", "danger")]).
Proof.
  assert (Hs : persisted MiniJson.load (world_with [cs101; cs102]) =
               Ok (PList (map course_dict [cs101; cs102] ++ [])))
    by (vm_compute; reflexivity).
  split; [exact Hs|].
  apply (add_course_duplicate_code MiniJson.dump MiniJson.load
           (world_with [cs101; cs102]) [cs101; cs102] [] cs101 (post cs101_again) Hs);
    [reflexivity | reflexivity | now left | reflexivity].
Defined.

Lemma add_course_non_list_store_witness :
  persisted MiniJson.load empty_object_world = Ok (PDict []) /\
  add_course MiniJson.dump MiniJson.load (post cs101) empty_object_world =
  (Raise AttributeError, empty_object_world).
Proof.
  split; [reflexivity|].
  apply (add_course_non_list_store MiniJson.dump MiniJson.load empty_object_world
           (PDict []) (post cs101));
    [reflexivity | discriminate | reflexivity | reflexivity].
Defined.

Lemma save_courses_non_list_store_witness :
  persisted MiniJson.load empty_object_world = Ok (PDict []) /\
  save_courses MiniJson.dump MiniJson.load (course_dict cs101) empty_object_world =
  (Raise AttributeError, empty_object_world).
Proof.
  split; [reflexivity|].
  apply (save_courses_non_list_store MiniJson.dump MiniJson.load empty_object_world
           (PDict []) (course_dict cs101)); [reflexivity | discriminate].
Defined.

Lemma add_course_succeeds_at_most_once_witness :
  add_course MiniJson.dump MiniJson.load (post cs101) fresh_world =
    (Ok (Redirect "course_catalog"), after_cs101) /\
  fst (add_course MiniJson.dump MiniJson.load (post cs102) after_cs101) <>
    Ok (Redirect "course_catalog") /\
  disk (serve_add_course MiniJson.dump MiniJson.load
          [post cs102; post cs101; mkRequest GET []; post cs101_again] after_cs101) =
    disk after_cs101.
Proof.
  assert (H1 : add_course MiniJson.dump MiniJson.load (post cs101) fresh_world =
               (Ok (Redirect "course_catalog"), after_cs101))
    by (vm_compute; reflexivity).
  split; [exact H1|].
  destruct (add_course_succeeds_at_most_once MiniJson.dump MiniJson.load
              MiniJsonFacts.load_dump fresh_world after_cs101 (post cs101) H1)
    as [Hone Hall].
  split; [exact (Hone after_cs101 (post cs102) eq_refl)|].
  exact (proj1 (Hall [post cs102; post cs101; mkRequest GET []; post cs101_again])).
Defined.

Lemma added_course_lookup_raises_witness :
  persisted MiniJson.load (world_with [cs101]) = Ok (catalog_value [cs101]) /\
  filled cs102 = true /\
  course_details MiniJson.load "CS102"
    (snd (add_course MiniJson.dump MiniJson.load (post cs102) (world_with [cs101]))) =
  (Raise TypeError,
   snd (add_course MiniJson.dump MiniJson.load (post cs102) (world_with [cs101]))).
Proof.
  assert (Hs : persisted MiniJson.load (world_with [cs101]) = Ok (catalog_value [cs101]))
    by (vm_compute; reflexivity).
  split; [exact Hs|]. split; [reflexivity|].
  apply (added_course_lookup_raises MiniJson.dump MiniJson.load MiniJsonFacts.load_dump
           (world_with [cs101]) [cs101] cs102 Hs eq_refl).
  intros x [<-|[]]. discriminate.
Defined.

Lemma course_details_scan_is_lazy_witness :
  persisted MiniJson.load damaged_world =
    Ok (PList (map course_dict [cs101] ++
               [PDict [("name", PStr "Orphan")]; course_dict cs102])) /\
  course_details MiniJson.load "CS101" damaged_world =
    (Ok (Render "course_details.html" [("course", course_dict cs101)]), damaged_world) /\
  course_details MiniJson.load "CS102" damaged_world = (Raise KeyError, damaged_world).
Proof.
  assert (Hs : persisted MiniJson.load damaged_world =
               Ok (PList (map course_dict [cs101] ++
                          [PDict [("name", PStr "Orphan")]; course_dict cs102])))
    by (vm_compute; reflexivity).
  split; [exact Hs|]. split.
  - exact (proj1 (course_details_scan_is_lazy MiniJson.load damaged_world [cs101]
                    [PDict [("name", PStr "Orphan")]; course_dict cs102] "CS101" Hs)
             cs101 eq_refl).
  - exact (proj2 (course_details_scan_is_lazy MiniJson.load damaged_world [cs101]
                    [PDict [("name", PStr "Orphan")]; course_dict cs102] "CS102" Hs)
             (PDict [("name", PStr "Orphan")]) [course_dict cs102] KeyError
             eq_refl eq_refl eq_refl).
Defined.

Lemma add_course_success_only_if_new_witness :
  add_course MiniJson.dump MiniJson.load (post cs102) (world_with [cs101]) =
    (Ok (Redirect "course_catalog"),
     snd (add_course MiniJson.dump MiniJson.load (post cs102) (world_with [cs101]))) /\
  py_all_values (course_of_form (form (post cs102))) = true.
Proof.
  assert (H1 : add_course MiniJson.dump MiniJson.load (post cs102) (world_with [cs101]) =
               (Ok (Redirect "course_catalog"),
                snd (add_course MiniJson.dump MiniJson.load (post cs102)
                       (world_with [cs101]))))
    by (vm_compute; reflexivity).
  split; [exact H1|].
  exact (proj1 (proj2 (add_course_success_only_if_new MiniJson.dump MiniJson.load
                         (world_with [cs101]) _ (post cs102) H1))).
Defined.
